(** * agentic-api: the health service and its startup hook

    A verification model of [src/agentic-api/main.py]: the two health-check
    handlers [root] and [health], the [lifespan] startup hook and the
    application object [app] that ties them together.

    Layout:
    - [Py]      : the Python values the module manipulates (dict displays,
                  exceptions, call outcomes) and the generator protocol
                  behind [contextlib.asynccontextmanager];
    - [Fastapi] : requests, responses, route registration and dispatch;
    - [Main]    : the definitions of [main.py], in source order;
    - [Host]    : the hosting runtime that drives the application (startup,
                  serving, shutdown), with an event trace;
    - [Sample]  : concrete collaborators on which the model is run;
    - [Shape]   : the invariant that ties a process phase to its trace;
    - [Lifetime]: how the state of a process relates to the outcome of
                  the telemetry configuration;
    - lemmas on the model, one theorem per specification claim, then
      further properties of the module.

    The module also acquires a logger ([logging.getLogger(__name__)]) that
    nothing in it uses; it has no counterpart here. *)

From Stdlib Require Import String List ZArith.
Import ListNotations.
Local Open Scope string_scope.
Local Open Scope Z_scope.
Local Open Scope list_scope.

(* ===================================================================== *)
(** ** Python values *)
(* ===================================================================== *)

Module Py.

(** A [dict] with string keys and values.  Python dicts keep insertion
    order, and the order of the keys is visible in the serialised response,
    so the model is an association list in insertion order, without
    duplicate keys. *)
Definition dict := list (string * string).

Fixpoint dict_get (k : string) (d : dict) : option string :=
  match d with
  | [] => None
  | (k', v) :: d' => if String.eqb k k' then Some v else dict_get k d'
  end.

(** [d[k] = v]: an existing key keeps its position, a new key goes last. *)
Fixpoint dict_set (k v : string) (d : dict) : dict :=
  match d with
  | [] => [(k, v)]
  | (k', v') :: d' =>
      if String.eqb k k' then (k', v) :: d' else (k', v') :: dict_set k v d'
  end.

(** A dict display [{k1: v1, k2: v2, ...}] stores its items left to right. *)
Definition dict_display (items : list (string * string)) : dict :=
  fold_left (fun d kv => dict_set (fst kv) (snd kv) d) items [].

(** An exception object: the names of its class and of the classes it
    derives from (its method resolution order, the class itself first),
    its message, and for [raise ... from cause] the exception it was
    raised from. *)
Inductive exn : Type :=
| Exc (mro : list string) (msg : string)
| ExcFrom (mro : list string) (msg : string) (cause : exn).

Definition exn_mro (e : exn) : list string :=
  match e with
  | Exc mro _ => mro
  | ExcFrom mro _ _ => mro
  end.

(** [isinstance(e, cls)], for a class given by its name. *)
Definition isinstance (e : exn) (cls : string) : bool :=
  existsb (String.eqb cls) (exn_mro e).

Fixpoint mro_eqb (a b : list string) : bool :=
  match a, b with
  | [], [] => true
  | x :: a', y :: b' => String.eqb x y && mro_eqb a' b'
  | _, _ => false
  end.

(** [a is b] on exception objects, which the model identifies with their
    contents. *)
Fixpoint exn_eqb (a b : exn) : bool :=
  match a, b with
  | Exc c1 m1, Exc c2 m2 => mro_eqb c1 c2 && String.eqb m1 m2
  | ExcFrom c1 m1 x, ExcFrom c2 m2 y =>
      mro_eqb c1 c2 && String.eqb m1 m2 && exn_eqb x y
  | _, _ => false
  end.

(** [e.__cause__ is value]. *)
Definition raised_from (e value : exn) : bool :=
  match e with
  | ExcFrom _ _ cause => exn_eqb cause value
  | Exc _ _ => false
  end.

Definition RuntimeError_mro : list string :=
  ["RuntimeError"; "Exception"; "BaseException"; "object"].

Definition RuntimeError (msg : string) : exn := Exc RuntimeError_mro msg.

(** The exception with which [e], raised in the body of an async
    generator, leaves the generator: a [StopIteration] or a
    [StopAsyncIteration] (or an instance of a subclass) is replaced by a
    [RuntimeError] raised from it, any other exception leaves as it is. *)
Definition async_gen_escape (e : exn) : exn :=
  if isinstance e "StopIteration" then
    ExcFrom RuntimeError_mro "async generator raised StopIteration" e
  else if isinstance e "StopAsyncIteration" then
    ExcFrom RuntimeError_mro "async generator raised StopAsyncIteration" e
  else e.

(** How a call ends: it returns a value or it raises. *)
Inductive outcome (A : Type) : Type :=
| Returned (a : A)
| Raised (e : exn).
Arguments Returned {A} a.
Arguments Raised {A} e.

(** Code that runs against process-wide state [G] (module globals, the
    registered telemetry exporters, ...).  A raising call keeps the state it
    reached: there is no rollback in Python. *)
Definition M (G A : Type) : Type := G -> outcome A * G.

Definition ret {G A} (a : A) : M G A := fun g => (Returned a, g).

(** The routines of other modules that [main.py] calls as statements. *)
Inductive callee : Type :=
| telemetry_configure_opentelemetry.

(** The body of an async generator function, for the statements [main.py]
    uses: an expression statement that calls an external routine, a bare
    [yield], and the end of the body.  There is no [try] in the fragment,
    so an exception raised by a call, or thrown in at a [yield], leaves the
    generator at once, as [async_gen_escape] makes it. *)
Inductive agen : Type :=
| GCall (f : callee) (rest : agen)
| GYield (rest : agen)
| GEnd.

(** What is observable of a run: calls into other modules and how they end,
    and the milestones of the service's life. *)
Inductive event (Req Resp : Type) : Type :=
| EvCall (f : callee)
| EvReturn (f : callee)
| EvRaise (f : callee) (e : exn)
| EvStartupComplete
| EvStartupFailed (e : exn)
| EvListening
| EvServed (req : Req) (resp : Resp)
| EvExitHook (reason : option exn)
| EvShutdownComplete
| EvShutdownFailed (e : exn).
Arguments EvCall {Req Resp} f.
Arguments EvReturn {Req Resp} f.
Arguments EvRaise {Req Resp} f e.
Arguments EvStartupComplete {Req Resp}.
Arguments EvStartupFailed {Req Resp} e.
Arguments EvListening {Req Resp}.
Arguments EvServed {Req Resp} req resp.
Arguments EvExitHook {Req Resp} reason.
Arguments EvShutdownComplete {Req Resp}.
Arguments EvShutdownFailed {Req Resp} e.

Definition trace (Req Resp : Type) : Type := list (event Req Resp).

(** Result of resuming a generator. *)
Inductive gen_result : Type :=
| GenYielded (suspended : agen)
| GenStopped
| GenRaised (e : exn).

Section Generators.
Context {G Req Resp : Type}.
(** The implementation behind each external routine. *)
Variable extern : callee -> M G unit.

(** [await gen.__anext__()]: run the body up to its next [yield]. *)
Fixpoint anext (g : agen) (w : G) : gen_result * G * trace Req Resp :=
  match g with
  | GEnd => (GenStopped, w, [])
  | GYield rest => (GenYielded rest, w, [])
  | GCall f rest =>
      match extern f w with
      | (Returned _, w') =>
          let '(r, w'', t) := anext rest w' in
          (r, w'', EvCall f :: EvReturn f :: t)
      | (Raised e, w') =>
          (GenRaised (async_gen_escape e), w', [EvCall f; EvRaise f e])
      end
  end.

(** [await gen.athrow(e)] on a generator suspended at a [yield]: the
    [yield] expression raises [e]; with no enclosing [try] nothing of the
    rest of the body runs and [e] leaves the generator. *)
Definition athrow (e : exn) (suspended : agen) (w : G)
  : gen_result * G * trace Req Resp :=
  (GenRaised (async_gen_escape e), w, []).

(** [contextlib.asynccontextmanager]: [__aenter__]. *)
Definition aenter (g : agen) (w : G) : outcome agen * G * trace Req Resp :=
  match anext g w with
  | (GenYielded k, w', t) => (Returned k, w', t)
  | (GenStopped, w', t) =>
      (Raised (RuntimeError "generator didn't yield"), w', t)
  | (GenRaised e, w', t) => (Raised e, w', t)
  end.

(** [contextlib.asynccontextmanager]: [__aexit__].  The returned boolean
    says whether the exception that left the [async with] block is
    suppressed.  What comes back from [athrow] is handled as the three
    [except] clauses of the library do: the end of the generator, a
    [RuntimeError] (the thrown exception itself, or the replacement of a
    thrown [StopIteration] or [StopAsyncIteration]), any other
    exception. *)
Definition aexit (reason : option exn) (suspended : agen) (w : G)
  : outcome bool * G * trace Req Resp :=
  match reason with
  | None =>
      match anext suspended w with
      | (GenStopped, w', t) => (Returned false, w', t)
      | (GenYielded _, w', t) =>
          (Raised (RuntimeError "generator didn't stop"), w', t)
      | (GenRaised e, w', t) => (Raised e, w', t)
      end
  | Some value =>
      match athrow value suspended w with
      | (GenStopped, w', t) => (Returned true, w', t)
      | (GenRaised e, w', t) =>
          if isinstance e "RuntimeError" then
            if exn_eqb e value then (Returned false, w', t)
            else if ((isinstance value "StopIteration"
                      || isinstance value "StopAsyncIteration")
                     && raised_from e value)%bool
            then (Returned false, w', t)
            else (Raised e, w', t)
          else if exn_eqb e value then (Returned false, w', t)
          else (Raised e, w', t)
      | (GenYielded _, w', t) =>
          (Raised (RuntimeError "generator didn't stop after athrow()"),
           w', t)
      end
  end.
End Generators.

End Py.

(* ===================================================================== *)
(** ** The web framework, as far as [main.py] uses it *)
(* ===================================================================== *)

Module Fastapi.
Import Py.

(** What a client sends.  Everything but the method and the path is there
    to state that the handlers ignore it. *)
Record Request : Type := {
  req_method : string;
  req_path : string;
  req_query : string;
  req_headers : list (string * string);
  req_body : string
}.

Inductive content : Type :=
| JSON (d : dict)
| PlainText (s : string).

Record Response : Type := {
  status_code : Z;
  body : content
}.

(** The module passes the application object to [lifespan] by reference;
    the hook never looks inside it. *)
Inductive appref : Type :=
| ref_app.

Section Framework.
Context {G : Type}.

(** A path operation: a handler without parameters, so nothing of the
    request reaches it. *)
Record APIRoute : Type := {
  route_path : string;
  route_methods : list string;
  route_status_code : option Z;
  endpoint : M G dict
}.

Record FastAPI : Type := {
  lifespan_context : appref -> agen;
  routes : list APIRoute
}.

(** [fastapi.FastAPI(lifespan=...)].  The route table holds the routes
    that [main.py] declares and starts empty; the documentation routes
    that the framework adds of its own accord ([/docs], [/redoc],
    [/openapi.json]) are not part of the model, which speaks for the
    declared operations only. *)
Definition FastAPI_new (lifespan : appref -> agen) : FastAPI :=
  {| lifespan_context := lifespan; routes := [] |}.

(** The decorator [@app.get(path)]: registers the handler for [GET] on
    [path], after the routes already there, with no explicit status
    code. *)
Definition get (path : string) (handler : M G dict) (app : FastAPI)
  : FastAPI :=
  {| lifespan_context := lifespan_context app;
     routes := routes app ++
               [ {| route_path := path;
                    route_methods := ["GET"];
                    route_status_code := None;
                    endpoint := handler |} ] |}.

Inductive route_match : Type :=
| NONE
| PARTIAL
| FULL.

(** A route matches the path it was declared with.  The framework's
    pattern also accepts that path followed by a line feed; such a path
    is none of the declared operations and is not modelled. *)
Definition matches (r : APIRoute) (req : Request) : route_match :=
  if String.eqb (req_path req) (route_path r) then
    if existsb (String.eqb (req_method req)) (route_methods r)
    then FULL else PARTIAL
  else NONE.

(** Modelled from the spec: the framework's default response status.
    The route declarations of [main.py] give no status code; the spec's
    interface table (section 6) fixes the status of a handler that
    returns normally at 200. *)
Definition default_status_code : Z := 200.

(** Modelled from the spec: running the matched handler and wrapping
    what it returns.  A handler that raises is outside the spec's
    table; the framework answers 500 for it. *)
Definition run_endpoint (r : APIRoute) (w : G) : Response * G :=
  match endpoint r w with
  | (Returned d, w') =>
      ({| status_code :=
            match route_status_code r with
            | Some c => c
            | None => default_status_code
            end;
          body := JSON d |}, w')
  | (Raised _, w') =>
      ({| status_code := 500; body := PlainText "Internal Server Error" |},
       w')
  end.

(** Modelled from the spec: request dispatch of the framework, which is
    not part of the repository.  The spec (section 6) fixes the answer
    for a declared operation: the route registered for the method and
    the path of the request runs its handler.  For every other request
    the spec is silent; the 405 (path known under another method) and 404
    (unknown path) below follow the framework's convention and make the
    function total.  The framework's redirect of a path that differs
    from a route by a trailing slash is not modelled. *)
Fixpoint dispatch (rs : list APIRoute) (partial : bool) (req : Request)
         (w : G) : Response * G :=
  match rs with
  | [] =>
      if partial
      then ({| status_code := 405;
               body := JSON [("detail", "Method Not Allowed")] |}, w)
      else ({| status_code := 404;
               body := JSON [("detail", "Not Found")] |}, w)
  | r :: rs' =>
      match matches r req with
      | FULL => run_endpoint r w
      | PARTIAL => dispatch rs' true req w
      | NONE => dispatch rs' partial req w
      end
  end.

Definition handle (app : FastAPI) (req : Request) (w : G) : Response * G :=
  dispatch (routes app) false req w.
End Framework.
Arguments APIRoute G : clear implicits.
Arguments FastAPI G : clear implicits.

End Fastapi.

(* ===================================================================== *)
(** ** [main.py] *)
(* ===================================================================== *)

Module Main.
Import Py Fastapi.

(** [[
    @contextlib.asynccontextmanager
    async def lifespan(app: fastapi.FastAPI):
        telemetry.configure_opentelemetry()
        yield
    ]]
    The decorator turns the generator into a context manager whose
    [__aenter__] and [__aexit__] are [Py.aenter] and [Py.aexit]. *)
Definition lifespan (app : appref) : agen :=
  GCall telemetry_configure_opentelemetry
    (GYield
       GEnd).

Section Handlers.
Context {G : Type}.

(** [[
    async def root():
        return {"status": "healthy", "message": "Agentic API is running"}
    ]] *)
Definition root : M G dict :=
  ret (dict_display [("status", "healthy");
                     ("message", "Agentic API is running")]).

(** [[
    async def health():
        return {"status": "healthy"}
    ]] *)
Definition health : M G dict :=
  ret (dict_display [("status", "healthy")]).

(** The module body, top to bottom:
    [app = fastapi.FastAPI(lifespan=lifespan)], then the two decorated
    handlers. *)
Definition app : FastAPI G :=
  get "/health" health
    (get "/" root
       (FastAPI_new lifespan)).
End Handlers.

End Main.

(* ===================================================================== *)
(** ** The hosting runtime *)
(* ===================================================================== *)

Module Host.
Import Py Fastapi.

(** Where a process is in its life.  [Started] and [Listening] hold the
    lifespan generator, suspended at its [yield]. *)
Inductive phase : Type :=
| Created
| Started (hook : agen)
| Listening (hook : agen)
| Failed (e : exn)
| Stopped.

(** What happens to a process from outside. *)
Inductive stimulus : Type :=
| Boot
| Bind (failure : option exn)
| Incoming (req : Request)
| Shutdown (reason : option exn).

Record process (G : Type) : Type := {
  proc_phase : phase;
  proc_globals : G;
  proc_trace : trace Request Response
}.
Arguments proc_phase {G} p.
Arguments proc_globals {G} p.
Arguments proc_trace {G} p.

(** A freshly created process: the module is imported, nothing has run. *)
Definition boot_state {G : Type} (w : G) : process G :=
  {| proc_phase := Created; proc_globals := w; proc_trace := [] |}.

Section Runtime.
Context {G : Type}.
Variable extern : callee -> M G unit.
Variable app : FastAPI G.

(** Modelled from the spec: leaving the lifespan scope (section 4.1,
    "release on every exit path").  The host, which is not part of the
    repository, calls the hook's [__aexit__] with the reason the scope is
    left: [None] for an orderly shutdown or a termination signal, an
    exception when something inside the scope raised.  An exception the
    hook does not suppress makes the shutdown a failed one. *)
Definition leave (reason : option exn) (hook : agen) (p : process G)
  : process G :=
  let '(r, w', t) := aexit extern reason hook (proc_globals p) in
  let final :=
    match r, reason with
    | Raised e, _ => EvShutdownFailed e
    | Returned false, Some e => EvShutdownFailed e
    | Returned _, _ => EvShutdownComplete
    end in
  {| proc_phase := Stopped;
     proc_globals := w';
     proc_trace := proc_trace p ++ EvExitHook reason :: t ++ [final] |}.

(** Modelled from the spec: the life of the process (section 2, "process
    start, configure() runs, service begins listening, answers requests
    until process shutdown"; section 4.1; section 5).  The host enters
    the lifespan scope once, binds the listener only after the scope is
    entered, serves requests only while listening, and leaves the scope
    on shutdown or when a later startup phase fails.  A stimulus that does
    not apply in the current phase is dropped: a connection to a process
    that is not listening is refused. *)
Definition step (p : process G) (s : stimulus) : process G :=
  match proc_phase p, s with
  | Created, Boot =>
      match aenter extern (lifespan_context app ref_app) (proc_globals p) with
      | (Returned hook, w', t) =>
          {| proc_phase := Started hook;
             proc_globals := w';
             proc_trace := proc_trace p ++ t ++ [EvStartupComplete] |}
      | (Raised e, w', t) =>
          {| proc_phase := Failed e;
             proc_globals := w';
             proc_trace := proc_trace p ++ t ++ [EvStartupFailed e] |}
      end
  | Started hook, Bind None =>
      {| proc_phase := Listening hook;
         proc_globals := proc_globals p;
         proc_trace := proc_trace p ++ [EvListening] |}
  | Started hook, Bind (Some e) => leave (Some e) hook p
  | Started hook, Shutdown reason => leave reason hook p
  | Listening hook, Incoming req =>
      let '(resp, w') := handle app req (proc_globals p) in
      {| proc_phase := Listening hook;
         proc_globals := w';
         proc_trace := proc_trace p ++ [EvServed req resp] |}
  | Listening hook, Shutdown reason => leave reason hook p
  | _, _ => p
  end.

Definition run (stimuli : list stimulus) (p : process G) : process G :=
  fold_left step stimuli p.

(** The stimuli that take a process out of the lifespan scope, with the
    reason handed to the hook. *)
Definition exit_path (ph : phase) (s : stimulus) : option (option exn) :=
  match ph, s with
  | Started _, Bind (Some e) => Some (Some e)
  | Started _, Shutdown reason => Some reason
  | Listening _, Shutdown reason => Some reason
  | _, _ => None
  end.
End Runtime.

(** Counting in traces. *)
Definition callee_eqb (f g : callee) : bool :=
  match f, g with
  | telemetry_configure_opentelemetry, telemetry_configure_opentelemetry =>
      true
  end.

Definition is_call (f : callee) (ev : event Request Response) : bool :=
  match ev with
  | EvCall g => callee_eqb f g
  | _ => false
  end.

Definition is_exit_hook (ev : event Request Response) : bool :=
  match ev with
  | EvExitHook _ => true
  | _ => false
  end.

Definition is_served (ev : event Request Response) : bool :=
  match ev with
  | EvServed _ _ => true
  | _ => false
  end.

(** Events that show the service taking traffic. *)
Definition is_traffic (ev : event Request Response) : bool :=
  match ev with
  | EvListening | EvServed _ _ => true
  | _ => false
  end.

Definition count (f : event Request Response -> bool)
           (t : trace Request Response) : nat :=
  length (filter f t).

End Host.

(* ===================================================================== *)
(** ** Concrete collaborators, for running the model *)
(* ===================================================================== *)

Module Sample.
Import Py Fastapi Host.

(** A telemetry module whose state is the number of completed
    configurations. *)
Definition telemetry_ok : callee -> M nat unit :=
  fun _ w => (Returned tt, S w).

Definition endpoint_unset : exn :=
  Exc ["ValueError"; "Exception"; "BaseException"; "object"]
      "no exporter endpoint".

(** A telemetry module that cannot be configured. *)
Definition telemetry_broken : callee -> M nat unit :=
  fun _ w => (Raised endpoint_unset, w).

Definition address_in_use : exn :=
  Exc ["OSError"; "Exception"; "BaseException"; "object"]
      "address already in use".

Definition exhausted : exn :=
  Exc ["StopIteration"; "Exception"; "BaseException"; "object"]
      "no exporter left".

(** A telemetry module whose configuration lets a [StopIteration]
    escape. *)
Definition telemetry_exhausted : callee -> M nat unit :=
  fun _ w => (Raised exhausted, w).

Definition probe (path : string) : Request :=
  {| req_method := "GET"; req_path := path; req_query := "";
     req_headers := []; req_body := "" |}.

(** The same operation, asked with a query string, a header and a body. *)
Definition noisy_probe (path : string) : Request :=
  {| req_method := "GET"; req_path := path; req_query := "verbose=1";
     req_headers := [("x-request-id", "42")]; req_body := "ping" |}.

End Sample.

(* ===================================================================== *)
(** ** Shape of the traces of the application *)
(* ===================================================================== *)

Module Shape.
Import Py Fastapi Main Host.

Abbreviation cfg := telemetry_configure_opentelemetry.

(** The last event of a shutdown whose hook suppressed nothing. *)
Definition final_event (reason : option exn) : event Request Response :=
  match reason with
  | None => EvShutdownComplete
  | Some e => EvShutdownFailed e
  end.

(** Every phase a process of [Main.app] can be in determines what its
    trace looks like. *)
Inductive shape : phase -> trace Request Response -> Prop :=
| shape_created :
    shape Created []
| shape_failed e :
    shape (Failed (async_gen_escape e))
          [EvCall cfg; EvRaise cfg e; EvStartupFailed (async_gen_escape e)]
| shape_started :
    shape (Started GEnd) [EvCall cfg; EvReturn cfg; EvStartupComplete]
| shape_listening served :
    Forall (fun ev => is_served ev = true) served ->
    shape (Listening GEnd)
          (EvCall cfg :: EvReturn cfg :: EvStartupComplete ::
           EvListening :: served)
| shape_stopped_unbound reason :
    shape Stopped
          [EvCall cfg; EvReturn cfg; EvStartupComplete;
           EvExitHook reason; final_event reason]
| shape_stopped served reason :
    Forall (fun ev => is_served ev = true) served ->
    shape Stopped
          (EvCall cfg :: EvReturn cfg :: EvStartupComplete ::
           EvListening :: served ++ [EvExitHook reason; final_event reason]).

Definition shaped {G : Type} (p : process G) : Prop :=
  shape (proc_phase p) (proc_trace p).

End Shape.

(* ===================================================================== *)
(** ** What a process lifetime keeps *)
(* ===================================================================== *)

Module Lifetime.
Import Py Fastapi Main Host Shape.

(** The globals of a process are the initial ones until it boots and the
    ones the telemetry configuration left from then on; the outcome of
    the startup is the outcome of that one call, the failure being the
    exception of the call as it leaves the hook. *)
Definition configured {G : Type} (extern : callee -> M G unit) (w0 : G)
           (p : process G) : Prop :=
  match proc_phase p with
  | Created => proc_globals p = w0
  | Failed e' =>
      exists e, extern cfg w0 = (Raised e, proc_globals p)
                /\ e' = async_gen_escape e
  | Started _ | Listening _ | Stopped =>
      extern cfg w0 = (Returned tt, proc_globals p)
  end.

End Lifetime.

(* ===================================================================== *)
(** ** Lemmas on the model *)
(* ===================================================================== *)

Import Py Fastapi Main Host Shape Lifetime.

Lemma mro_eqb_refl (m : list string) : mro_eqb m m = true.
Proof.
  induction m as [| c m IH]; [reflexivity |].
  cbn. now rewrite String.eqb_refl.
Qed.

Lemma exn_eqb_refl (e : exn) : exn_eqb e e = true.
Proof.
  induction e as [mro msg | mro msg cause IH]; cbn.
  - now rewrite mro_eqb_refl, String.eqb_refl.
  - now rewrite mro_eqb_refl, String.eqb_refl, IH.
Qed.

Lemma replacement_is_RuntimeError (msg : string) (cause : exn) :
  isinstance (ExcFrom RuntimeError_mro msg cause) "RuntimeError" = true.
Proof. reflexivity. Qed.

Lemma replacement_raised_from (msg : string) (cause : exn) :
  raised_from (ExcFrom RuntimeError_mro msg cause) cause = true.
Proof. unfold raised_from. apply exn_eqb_refl. Qed.

(** A thrown exception that comes back from the generator, as itself or
    replaced, is never suppressed and never turned into a failure of the
    exit. *)
Lemma escape_not_suppressed (value : exn) :
  (if isinstance (async_gen_escape value) "RuntimeError" then
     if exn_eqb (async_gen_escape value) value then true
     else ((isinstance value "StopIteration"
            || isinstance value "StopAsyncIteration")
           && raised_from (async_gen_escape value) value)%bool
   else exn_eqb (async_gen_escape value) value) = true.
Proof.
  unfold async_gen_escape.
  destruct (isinstance value "StopIteration") eqn:Hs; cbv beta iota.
  - rewrite replacement_is_RuntimeError, replacement_raised_from.
    now destruct (exn_eqb _ value).
  - destruct (isinstance value "StopAsyncIteration") eqn:Ha; cbv beta iota.
    + rewrite replacement_is_RuntimeError, replacement_raised_from.
      now destruct (exn_eqb _ value).
    + rewrite exn_eqb_refl. now destruct (isinstance value "RuntimeError").
Qed.

(** Entering the hook: one call of the telemetry routine, and the hook is
    suspended with nothing left to run exactly when that call returns. *)
Lemma anext_lifespan {G : Type} (extern : callee -> M G unit) a (w : G) :
  anext (Req:=Request) (Resp:=Response) extern (lifespan a) w =
  match extern cfg w with
  | (Returned _, w') => (GenYielded GEnd, w', [EvCall cfg; EvReturn cfg])
  | (Raised e, w') =>
      (GenRaised (async_gen_escape e), w', [EvCall cfg; EvRaise cfg e])
  end.
Proof.
  unfold lifespan. cbn [anext].
  destruct (extern cfg w) as [[u | e] w']; reflexivity.
Qed.

(** Leaving a hook that has nothing after its [yield]. *)
Lemma aexit_GEnd {G : Type} (extern : callee -> M G unit) reason (w : G) :
  aexit (Req:=Request) (Resp:=Response) extern reason GEnd w =
  (Returned false, w, []).
Proof.
  destruct reason as [value |]; [| reflexivity].
  unfold aexit, athrow.
  pose proof (escape_not_suppressed value) as H.
  destruct (isinstance (async_gen_escape value) "RuntimeError").
  - destruct (exn_eqb (async_gen_escape value) value); [reflexivity |].
    now rewrite H.
  - now rewrite H.
Qed.

Lemma leave_GEnd {G : Type} (extern : callee -> M G unit) reason
      (p : process G) :
  leave extern reason GEnd p =
  {| proc_phase := Stopped;
     proc_globals := proc_globals p;
     proc_trace := proc_trace p ++ [EvExitHook reason; final_event reason] |}.
Proof.
  unfold leave. rewrite aexit_GEnd.
  destruct reason; reflexivity.
Qed.

(** Dispatch runs at most one handler, so it changes the globals only if
    some handler does. *)
Lemma dispatch_frame {G : Type} (rs : list (APIRoute G)) :
  Forall (fun r => forall w, snd (endpoint r w) = w) rs ->
  forall partial req w, snd (dispatch rs partial req w) = w.
Proof.
  induction 1 as [| r rs Hr _ IH]; intros partial req w; cbn [dispatch].
  - destruct partial; reflexivity.
  - destruct (matches r req); auto.
    unfold run_endpoint. specialize (Hr w).
    destruct (endpoint r w) as [[d | e] w']; cbn in *; assumption.
Qed.

Lemma handle_frame {G : Type} (req : Request) (w : G) :
  snd (handle app req w) = w.
Proof.
  unfold handle. apply dispatch_frame.
  cbn. repeat constructor.
Qed.

(** What a request to a listening process does. *)
Lemma step_incoming {G : Type} (extern : callee -> M G unit) hook w t req :
  step extern app
       {| proc_phase := Listening hook; proc_globals := w; proc_trace := t |}
       (Incoming req) =
  {| proc_phase := Listening hook;
     proc_globals := w;
     proc_trace := t ++ [EvServed req (fst (handle app req w))] |}.
Proof.
  unfold step. cbn [proc_phase proc_globals proc_trace].
  pose proof (handle_frame req w) as Hw.
  destruct (handle app req w) as [resp w']. cbn in *. now subst.
Qed.

Lemma step_shaped {G : Type} (extern : callee -> M G unit) (p : process G) s :
  shaped p -> shaped (step extern app p s).
Proof.
  destruct p as [ph w t]. unfold shaped. cbn [proc_phase proc_trace].
  intros Hs. inversion Hs; subst ph t.
  - destruct s; try exact Hs.
    unfold step, aenter. cbn [proc_phase proc_globals proc_trace
                              app get FastAPI_new lifespan_context].
    rewrite anext_lifespan.
    destruct (extern cfg w) as [[u | e] w']; cbn; constructor.
  - destruct s; exact Hs.
  - destruct s as [| [e |] | req | reason]; try exact Hs.
    + unfold step. cbn [proc_phase]. rewrite leave_GEnd. cbn. constructor.
    + cbn. constructor. constructor.
    + unfold step. cbn [proc_phase]. rewrite leave_GEnd. cbn. constructor.
  - destruct s as [| f | req | reason]; try exact Hs.
    + rewrite step_incoming. cbn [proc_phase proc_trace app_comm_cons].
      change (shape (Listening GEnd)
                (EvCall cfg :: EvReturn cfg :: EvStartupComplete ::
                 EvListening ::
                 served ++ [EvServed req (fst (handle app req w))])).
      constructor. apply Forall_app. split; [assumption |].
      constructor; [reflexivity | constructor].
    + unfold step. cbn [proc_phase]. rewrite leave_GEnd.
      cbn [proc_phase proc_trace].
      change (shape Stopped
                (EvCall cfg :: EvReturn cfg :: EvStartupComplete ::
                 EvListening ::
                 served ++ [EvExitHook reason; final_event reason])).
      now constructor.
  - destruct s; exact Hs.
  - destruct s; exact Hs.
Qed.

Lemma run_shaped {G : Type} (extern : callee -> M G unit) stimuli :
  forall p : process G, shaped p -> shaped (run extern app stimuli p).
Proof.
  induction stimuli as [| s ss IH]; intros p Hp; cbn.
  - exact Hp.
  - apply IH. now apply step_shaped.
Qed.

Lemma reachable_shaped {G : Type} (extern : callee -> M G unit) stimuli
      (w0 : G) :
  shaped (run extern app stimuli (boot_state w0)).
Proof. apply run_shaped. constructor. Qed.

(** Traces are made of a startup prefix followed by served requests. *)
Lemma count_app (f : event Request Response -> bool) t1 t2 :
  count f (t1 ++ t2) = (count f t1 + count f t2)%nat.
Proof. unfold count. now rewrite filter_app, length_app. Qed.

Lemma count_served (f : event Request Response -> bool) served :
  (forall req resp, f (EvServed req resp) = false) ->
  Forall (fun ev => is_served ev = true) served ->
  count f served = 0%nat.
Proof.
  intros Hf. induction 1 as [| ev served Hev _ IH]; [reflexivity |].
  destruct ev; try discriminate Hev.
  unfold count in *. cbn [filter]. now rewrite Hf.
Qed.


(* ===================================================================== *)
(** ** The specification claims *)
(* ===================================================================== *)

(** C1.  Every [GET /] is answered with status 200 and the fixed object
    [{"status": "healthy", "message": "Agentic API is running"}]: the
    handler [root] returns that object from any process state, and the
    application wraps it in a 200 response whatever else the request
    carries. *)
Theorem root_returns_fixed_object
        (G : Type) (w : G) (query : string)
        (headers : list (string * string)) (payload : string) :
  root w =
    (Returned [("status", "healthy"); ("message", "Agentic API is running")],
     w)
  /\ handle app
       {| req_method := "GET"; req_path := "/"; req_query := query;
          req_headers := headers; req_body := payload |} w =
     ({| status_code := 200;
         body := JSON [("status", "healthy");
                       ("message", "Agentic API is running")] |}, w).
Proof. split; reflexivity. Qed.

(** C2.  Every [GET /health] is answered with status 200 and the fixed
    object [{"status": "healthy"}]. *)
Theorem health_returns_fixed_object
        (G : Type) (w : G) (query : string)
        (headers : list (string * string)) (payload : string) :
  health w = (Returned [("status", "healthy")], w)
  /\ handle app
       {| req_method := "GET"; req_path := "/health"; req_query := query;
          req_headers := headers; req_body := payload |} w =
     ({| status_code := 200; body := JSON [("status", "healthy")] |}, w).
Proof. split; reflexivity. Qed.



(** A process whose startup failed stays as it is, whatever comes next. *)
Lemma failed_is_final {G : Type} (extern : callee -> M G unit) stimuli :
  forall (p : process G) e,
    proc_phase p = Failed e -> run extern app stimuli p = p.
Proof.
  induction stimuli as [| s ss IH]; intros p e Hp; cbn; [reflexivity |].
  assert (Hstep : step extern app p s = p)
    by (unfold step; rewrite Hp; now destruct s).
  rewrite Hstep. now apply IH with e.
Qed.

(** C4.  If the telemetry configuration call raises, the hook does not
    catch it: entering the hook raises after that one call, and what it
    raises is the exception of the call as it leaves an async generator,
    that is, the exception itself unless it is a [StopIteration] or a
    [StopAsyncIteration], which surfaces as a [RuntimeError] raised from
    it.  The process then ends in the failed state with exactly one call
    in its trace, no listening or served event, and it stays there
    whatever happens next (further boot attempts included): the failure
    is fatal and not retried. *)
Theorem configure_failure_aborts_startup
        (G : Type) (extern : callee -> M G unit) (w w' : G) (e : exn)
        (stimuli : list stimulus) :
  extern cfg w = (Raised e, w') ->
  aenter (Req:=Request) (Resp:=Response) extern (lifespan ref_app) w =
    (Raised (async_gen_escape e), w', [EvCall cfg; EvRaise cfg e])
  /\ run extern app (Boot :: stimuli) (boot_state w) =
     {| proc_phase := Failed (async_gen_escape e);
        proc_globals := w';
        proc_trace := [EvCall cfg; EvRaise cfg e;
                       EvStartupFailed (async_gen_escape e)] |}
  /\ count is_traffic
       (proc_trace (run extern app (Boot :: stimuli) (boot_state w))) = 0%nat
  /\ count (is_call cfg)
       (proc_trace (run extern app (Boot :: stimuli) (boot_state w))) = 1%nat
  /\ (isinstance e "StopIteration" = false ->
      isinstance e "StopAsyncIteration" = false ->
      async_gen_escape e = e)
  /\ (isinstance e "StopIteration" = true
      \/ isinstance e "StopAsyncIteration" = true ->
      isinstance (async_gen_escape e) "RuntimeError" = true
      /\ raised_from (async_gen_escape e) e = true).
Proof.
  intros Hraise.
  assert (Henter :
            aenter (Req:=Request) (Resp:=Response) extern (lifespan ref_app) w
            = (Raised (async_gen_escape e), w', [EvCall cfg; EvRaise cfg e]))
    by (unfold aenter; rewrite anext_lifespan, Hraise; reflexivity).
  assert (Hrun :
            run extern app (Boot :: stimuli) (boot_state w) =
            {| proc_phase := Failed (async_gen_escape e);
               proc_globals := w';
               proc_trace := [EvCall cfg; EvRaise cfg e;
                              EvStartupFailed (async_gen_escape e)] |}).
  { change (run extern app (Boot :: stimuli) (boot_state w))
      with (run extern app stimuli (step extern app (boot_state w) Boot)).
    assert (Hboot : step extern app (boot_state w) Boot =
                    {| proc_phase := Failed (async_gen_escape e);
                       proc_globals := w';
                       proc_trace :=
                         [EvCall cfg; EvRaise cfg e;
                          EvStartupFailed (async_gen_escape e)] |}).
    { unfold step, boot_state.
      cbn [proc_phase proc_globals proc_trace
           app get FastAPI_new lifespan_context].
      rewrite Henter. reflexivity. }
    rewrite Hboot. now apply failed_is_final with (async_gen_escape e). }
  split; [exact Henter |].
  split; [exact Hrun |].
  split; [rewrite Hrun; reflexivity |].
  split; [rewrite Hrun; reflexivity |].
  split.
  - intros Hs Ha. unfold async_gen_escape. now rewrite Hs, Ha.
  - intros Hstop. unfold async_gen_escape.
    destruct (isinstance e "StopIteration") eqn:Hs; cbv beta iota.
    + split; [apply replacement_is_RuntimeError
             | apply replacement_raised_from].
    + destruct Hstop as [Hstop | Hstop]; [discriminate Hstop |].
      rewrite Hstop.
      split; [apply replacement_is_RuntimeError
             | apply replacement_raised_from].
Qed.

(** Witness for C4: a telemetry module that cannot be configured, and a
    host that goes on to bind, receive a probe and boot again; then a
    telemetry module that lets a [StopIteration] escape. *)
Lemma configure_failure_aborts_startup_witness :
  (Sample.telemetry_broken cfg 0%nat = (Raised Sample.endpoint_unset, 0%nat)
   /\ run Sample.telemetry_broken app
         [Boot; Bind None; Incoming (Sample.probe "/health"); Boot]
         (boot_state 0%nat) =
       {| proc_phase := Failed Sample.endpoint_unset;
          proc_globals := 0%nat;
          proc_trace := [EvCall cfg; EvRaise cfg Sample.endpoint_unset;
                         EvStartupFailed Sample.endpoint_unset] |})
  /\ (Sample.telemetry_exhausted cfg 0%nat = (Raised Sample.exhausted, 0%nat)
      /\ run Sample.telemetry_exhausted app [Boot; Bind None]
            (boot_state 0%nat) =
          {| proc_phase :=
               Failed (ExcFrom RuntimeError_mro
                               "async generator raised StopIteration"
                               Sample.exhausted);
             proc_globals := 0%nat;
             proc_trace :=
               [EvCall cfg; EvRaise cfg Sample.exhausted;
                EvStartupFailed
                  (ExcFrom RuntimeError_mro
                           "async generator raised StopIteration"
                           Sample.exhausted)] |})
  /\ async_gen_escape Sample.endpoint_unset = Sample.endpoint_unset
  /\ raised_from (async_gen_escape Sample.exhausted) Sample.exhausted = true.
Proof.
  pose proof (configure_failure_aborts_startup
                nat Sample.telemetry_broken 0%nat 0%nat Sample.endpoint_unset
                [Bind None; Incoming (Sample.probe "/health"); Boot]
                eq_refl) as Hbroken.
  pose proof (configure_failure_aborts_startup
                nat Sample.telemetry_exhausted 0%nat 0%nat Sample.exhausted
                [Bind None] eq_refl) as Hstop.
  split; [split; [reflexivity | exact (proj1 (proj2 Hbroken))] |].
  split; [split; [reflexivity | exact (proj1 (proj2 Hstop))] |].
  split.
  - apply (proj1 (proj2 (proj2 (proj2 (proj2 Hbroken))))); reflexivity.
  - apply (proj2 (proj2 (proj2 (proj2 (proj2 Hstop))))).
    left. reflexivity.
Defined.

(** C5.  The response of the application is a function of the method and
    the path alone: two requests for the same operation get the same
    status and the same body, whatever their query strings, headers and
    bodies and whatever the process state at the time; the same holds for
    the bytes any serialiser makes of the response.  For [GET /] and for
    [GET /health] in particular, any two invocations answer identically. *)
Theorem same_operation_same_response
        (G : Type) (Bytes : Type) (render : Response -> Bytes)
        (req1 req2 : Request) (w1 w2 : G) :
  req_method req1 = req_method req2 ->
  req_path req1 = req_path req2 ->
  fst (handle app req1 w1) = fst (handle app req2 w2)
  /\ render (fst (handle app req1 w1)) = render (fst (handle app req2 w2)).
Proof.
  intros Hm Hp.
  assert (H : fst (handle app req1 w1) = fst (handle app req2 w2)).
  { unfold handle, app, get, FastAPI_new.
    cbn [routes List.app dispatch].
    unfold matches. cbn [route_path route_methods existsb].
    rewrite Hm, Hp.
    destruct (String.eqb (req_path req2) "/");
      destruct (String.eqb (req_path req2) "/health");
      destruct (String.eqb (req_method req2) "GET"); reflexivity. }
  split; [exact H | now rewrite H].
Qed.

(** Witness for C5: a bare [GET /] against a fresh process and a [GET /]
    with query string, header and body against a process in another
    state. *)
Lemma same_operation_same_response_witness :
  fst (handle app (Sample.probe "/") 0%nat) =
  fst (handle app (Sample.noisy_probe "/") 7%nat).
Proof.
  apply (same_operation_same_response
           nat Response (fun r => r)
           (Sample.probe "/") (Sample.noisy_probe "/") 0%nat 7%nat);
    reflexivity.
Defined.


(** Requests change neither the phase nor the globals of a process. *)
Lemma incoming_frame {G : Type} (extern : callee -> M G unit) reqs :
  forall p : process G,
    proc_globals (run extern app (map Incoming reqs) p) = proc_globals p
    /\ proc_phase (run extern app (map Incoming reqs) p) = proc_phase p.
Proof.
  induction reqs as [| req reqs IH]; intros p; [now split |].
  change (run extern app (map Incoming (req :: reqs)) p)
    with (run extern app (map Incoming reqs) (step extern app p (Incoming req))).
  destruct (IH (step extern app p (Incoming req))) as [Hg Hp].
  rewrite Hg, Hp. clear IH Hg Hp.
  destruct p as [ph w t]. destruct ph; try (now split).
  rewrite step_incoming. now split.
Qed.

(** C7.  The handlers are stateless: [root] and [health] hand back the
    process state they were given, so does the dispatch of any request,
    and a process that is sent any sequence of requests ends with the
    globals and in the phase it had before them. *)
Theorem handlers_leave_state_unchanged
        (G : Type) (extern : callee -> M G unit) (w : G) (req : Request)
        (p : process G) (reqs : list Request) :
  snd (root w) = w
  /\ snd (health w) = w
  /\ snd (handle app req w) = w
  /\ proc_globals (run extern app (map Incoming reqs) p) = proc_globals p
  /\ proc_phase (run extern app (map Incoming reqs) p) = proc_phase p.
Proof.
  repeat split; try apply handle_frame; apply incoming_frame.
Qed.

(** C8.  The handlers always return and never raise: from every process
    state [root] and [health] end with a returned object, and no request
    at all is answered with the status 500 that the framework gives to a
    handler that raised. *)
Theorem handlers_never_raise
        (G : Type) (w : G) (req : Request) :
  (exists d, root w = (Returned d, w))
  /\ (exists d, health w = (Returned d, w))
  /\ (forall e : exn, fst (root w) <> Raised e)
  /\ (forall e : exn, fst (health w) <> Raised e)
  /\ status_code (fst (handle app req w)) <> 500.
Proof.
  repeat split.
  - eexists. reflexivity.
  - eexists. reflexivity.
  - intros e. discriminate.
  - intros e. discriminate.
  - unfold handle, app, get, FastAPI_new.
    cbn [routes List.app dispatch].
    unfold matches. cbn [route_path route_methods existsb].
    destruct (String.eqb (req_path req) "/");
      destruct (String.eqb (req_path req) "/health");
      destruct (String.eqb (req_method req) "GET"); cbn; discriminate.
Qed.

(** C9.  The release phase of the hook is a no-op that is run on every
    exit path.  In every execution the number of hook exits in the trace
    is one for a stopped process and zero otherwise; and whenever a
    reachable process is taken out of the lifespan scope (by a shutdown
    or termination signal, with or without an exception, or by the
    failure of a later startup phase) the hook's exit is run with the
    reason of the exit, calls nothing, suppresses nothing and leaves the
    globals as they were. *)
Theorem release_is_noop_on_every_exit_path
        (G : Type) (extern : callee -> M G unit)
        (stimuli : list stimulus) (w0 : G)
        (s : stimulus) (reason : option exn) :
  count is_exit_hook (proc_trace (run extern app stimuli (boot_state w0))) =
    match proc_phase (run extern app stimuli (boot_state w0)) with
    | Stopped => 1%nat
    | _ => 0%nat
    end
  /\ (exit_path (proc_phase (run extern app stimuli (boot_state w0))) s =
        Some reason ->
      (exists hook,
          (proc_phase (run extern app stimuli (boot_state w0)) = Started hook
           \/ proc_phase (run extern app stimuli (boot_state w0)) =
              Listening hook)
          /\ aexit (Req:=Request) (Resp:=Response) extern reason hook
                   (proc_globals (run extern app stimuli (boot_state w0))) =
             (Returned false,
              proc_globals (run extern app stimuli (boot_state w0)), []))
      /\ step extern app (run extern app stimuli (boot_state w0)) s =
         {| proc_phase := Stopped;
            proc_globals :=
              proc_globals (run extern app stimuli (boot_state w0));
            proc_trace :=
              proc_trace (run extern app stimuli (boot_state w0)) ++
              [EvExitHook reason; final_event reason] |}).
Proof.
  pose proof (reachable_shaped extern stimuli w0) as Hs.
  destruct (run extern app stimuli (boot_state w0)) as [ph w t].
  unfold shaped in Hs. cbn [proc_phase proc_globals proc_trace] in *.
  split.
  - destruct Hs as [ | e | | served Hsv | r | served r Hsv ];
      try reflexivity.
    + change (EvCall cfg :: EvReturn cfg :: EvStartupComplete ::
              EvListening :: served)
        with ([EvCall cfg; EvReturn cfg; EvStartupComplete; EvListening]
              ++ served).
      rewrite count_app, (count_served is_exit_hook served);
        [reflexivity | intros; reflexivity | assumption].
    + destruct r; reflexivity.
    + change (EvCall cfg :: EvReturn cfg :: EvStartupComplete ::
              EvListening :: served ++ [EvExitHook r; final_event r])
        with ([EvCall cfg; EvReturn cfg; EvStartupComplete; EvListening]
              ++ served ++ [EvExitHook r; final_event r]).
      rewrite !count_app, (count_served is_exit_hook served);
        [destruct r; reflexivity | intros; reflexivity | assumption].
  - intros Hexit.
    destruct Hs as [ | e | | served Hsv | r | served r Hsv ];
      destruct s as [| [f |] | req | r']; cbn in Hexit;
      try discriminate Hexit;
      injection Hexit as <-;
      (split;
       [ exists GEnd; split; [auto | apply aexit_GEnd]
       | unfold step; cbn [proc_phase]; apply leave_GEnd ]).
Qed.

(** Witness for C9, one per exit path: an orderly shutdown of a
    listening process, and the failure of the bind phase after the hook
    was entered. *)
Lemma release_is_noop_on_every_exit_path_witness :
  step Sample.telemetry_ok app
       (run Sample.telemetry_ok app
            [Boot; Bind None; Incoming (Sample.probe "/")]
            (boot_state 0%nat))
       (Shutdown None) =
  {| proc_phase := Stopped;
     proc_globals := 1%nat;
     proc_trace :=
       [EvCall cfg; EvReturn cfg; EvStartupComplete; EvListening;
        EvServed (Sample.probe "/")
                 {| status_code := 200;
                    body := JSON [("status", "healthy");
                                  ("message", "Agentic API is running")] |};
        EvExitHook None; EvShutdownComplete] |}
  /\ step Sample.telemetry_ok app
          (run Sample.telemetry_ok app [Boot] (boot_state 0%nat))
          (Bind (Some Sample.address_in_use)) =
     {| proc_phase := Stopped;
        proc_globals := 1%nat;
        proc_trace :=
          [EvCall cfg; EvReturn cfg; EvStartupComplete;
           EvExitHook (Some Sample.address_in_use);
           EvShutdownFailed Sample.address_in_use] |}.
Proof.
  split.
  - apply (proj2 (release_is_noop_on_every_exit_path
                    nat Sample.telemetry_ok
                    [Boot; Bind None; Incoming (Sample.probe "/")] 0%nat
                    (Shutdown None) None)).
    reflexivity.
  - apply (proj2 (release_is_noop_on_every_exit_path
                    nat Sample.telemetry_ok [Boot] 0%nat
                    (Bind (Some Sample.address_in_use))
                    (Some Sample.address_in_use))).
    reflexivity.
Defined.

(** C10.  The two probes agree on the health status: whatever the two
    requests carry and whatever the process states, both handlers return
    an object, it is the body of the response, and its ["status"] entry
    is ["healthy"] in both. *)
Theorem probes_agree_on_status
        (G : Type) (w1 w2 : G) (query1 query2 : string)
        (headers1 headers2 : list (string * string))
        (payload1 payload2 : string) :
  exists d1 d2 : dict,
    fst (root w1) = Returned d1
    /\ fst (health w2) = Returned d2
    /\ body (fst (handle app
                    {| req_method := "GET"; req_path := "/";
                       req_query := query1; req_headers := headers1;
                       req_body := payload1 |} w1)) = JSON d1
    /\ body (fst (handle app
                    {| req_method := "GET"; req_path := "/health";
                       req_query := query2; req_headers := headers2;
                       req_body := payload2 |} w2)) = JSON d2
    /\ dict_get "status" d1 = dict_get "status" d2
    /\ dict_get "status" d1 = Some "healthy".
Proof.
  do 2 eexists. repeat split; reflexivity.
Qed.

(* ===================================================================== *)
(** ** Further properties of the module *)
(* ===================================================================== *)

(** An invariant of [step] that may rely on the shape of the process is an
    invariant of every run. *)
Lemma run_invariant {G : Type} (extern : callee -> M G unit)
      (I : process G -> Prop) :
  (forall p s, shaped p -> I p -> I (step extern app p s)) ->
  forall stimuli p, shaped p -> I p -> I (run extern app stimuli p).
Proof.
  intros Hstep. induction stimuli as [| s ss IH]; intros p Hs Hp.
  - exact Hp.
  - change (run extern app (s :: ss) p)
      with (run extern app ss (step extern app p s)).
    apply IH; [now apply step_shaped | now apply Hstep].
Qed.

Lemma step_configured {G : Type} (extern : callee -> M G unit) (w0 : G)
      (p : process G) s :
  shaped p -> configured extern w0 p ->
  configured extern w0 (step extern app p s).
Proof.
  destruct p as [ph w t]. unfold shaped, configured.
  cbn [proc_phase proc_trace proc_globals].
  intros Hs Hc.
  destruct Hs as [ | e | | served Hsv | reason | served reason Hsv ].
  - destruct s; try exact Hc. subst w.
    unfold step, aenter. cbn [proc_phase proc_globals proc_trace
                              app get FastAPI_new lifespan_context].
    rewrite anext_lifespan.
    destruct (extern cfg w0) as [[[] | e] w'] eqn:E;
      cbn [proc_phase proc_globals]; [reflexivity |].
    exists e. now split.
  - destruct s; exact Hc.
  - destruct s as [| [e |] | req | reason]; try exact Hc;
      unfold step; cbn [proc_phase]; rewrite leave_GEnd; exact Hc.
  - destruct s as [| f | req | reason]; try exact Hc.
    + rewrite step_incoming. exact Hc.
    + unfold step. cbn [proc_phase]. rewrite leave_GEnd. exact Hc.
  - destruct s; exact Hc.
  - destruct s; exact Hc.
Qed.

Lemma reachable_configured {G : Type} (extern : callee -> M G unit)
      stimuli (w0 : G) :
  configured extern w0 (run extern app stimuli (boot_state w0)).
Proof.
  apply (run_invariant extern (configured extern w0)).
  - intros p s. apply step_configured.
  - constructor.
  - reflexivity.
Qed.

(** X2.  The only way startup fails is that the telemetry configuration
    raised.  Whenever entering the hook raises, the configuration call
    raised, nothing else was called, and what the hook raises is the
    exception of the call as it leaves an async generator (the exception
    itself, or the [RuntimeError] that replaces a [StopIteration] or a
    [StopAsyncIteration]); the hook never fails with an error of its own
    making, such as a generator that did not yield.  In every execution
    a process in the failed state holds that exception and the globals
    the failing call left. *)
Theorem startup_fails_only_with_configure_error
        (G : Type) (extern : callee -> M G unit)
        (stimuli : list stimulus) (w0 w w' : G) (e' : exn)
        (t : trace Request Response) :
  (aenter extern (lifespan ref_app) w = (Raised e', w', t) ->
   exists e, extern cfg w = (Raised e, w')
             /\ e' = async_gen_escape e
             /\ t = [EvCall cfg; EvRaise cfg e])
  /\ (proc_phase (run extern app stimuli (boot_state w0)) = Failed e' ->
      exists e,
        extern cfg w0 =
          (Raised e, proc_globals (run extern app stimuli (boot_state w0)))
        /\ e' = async_gen_escape e).
Proof.
  split.
  - unfold aenter. rewrite anext_lifespan.
    destruct (extern cfg w) as [[u | e] w1]; intros H; [discriminate H |].
    injection H as <- <- <-. exists e. repeat split.
  - intros Hph.
    pose proof (reachable_configured extern stimuli w0) as Hc.
    unfold configured in Hc. now rewrite Hph in Hc.
Qed.

(** Witness for X2: a telemetry module that lets a [StopIteration]
    escape, entered directly and booted twice by the host. *)
Lemma startup_fails_only_with_configure_error_witness :
  (exists e,
      Sample.telemetry_exhausted cfg 3%nat = (Raised e, 3%nat)
      /\ ExcFrom RuntimeError_mro "async generator raised StopIteration"
                 Sample.exhausted = async_gen_escape e
      /\ ([EvCall cfg; EvRaise cfg Sample.exhausted]
          : trace Request Response) =
         [EvCall cfg; EvRaise cfg e])
  /\ (exists e,
         Sample.telemetry_exhausted cfg 3%nat =
           (Raised e,
            proc_globals (run Sample.telemetry_exhausted app [Boot; Boot]
                              (boot_state 3%nat)))
         /\ ExcFrom RuntimeError_mro "async generator raised StopIteration"
                    Sample.exhausted = async_gen_escape e).
Proof.
  pose proof (startup_fails_only_with_configure_error
                nat Sample.telemetry_exhausted [Boot; Boot]
                3%nat 3%nat 3%nat
                (ExcFrom RuntimeError_mro
                         "async generator raised StopIteration"
                         Sample.exhausted)
                [EvCall cfg; EvRaise cfg Sample.exhausted]) as [Hhook Hproc].
  split; [apply Hhook | apply Hproc]; reflexivity.
Defined.
